(** * Gesture whiteboard: the pinch-to-pointer translation loop

    A shallow embedding of the gesture logic of [client/src/App.tsx]
    ([predictWebcam], [triggerEvent]) and of [utils/geometryUtils.ts]
    ([calculateDistance], [toPixelUrl]).

    Conventions of the embedding.
    - A JavaScript [number] is a real number: rounding of IEEE doubles,
      infinities and NaN are outside the model.
    - The closure variable [wasPinching] and the React state [isDrawing]
      form the [State] threaded through the frames.
    - Calls of [triggerEvent] are recorded, in order, in an output trace;
      what such a call does to the document is [dispatch].
    - Reading a property of [undefined] throws: a frame that throws ends
      the loop, since the next animation frame is requested by the last
      statement of [predictWebcam].
    - The skeleton overlay ([clearRect], [drawLandmarks]) only paints from
      the detection result: it is kept out of the gesture logic and
      modelled on its own, as [predictWebcam_overlay]. *)

From Stdlib Require Import Reals Lra List Bool Lia.
From Stdlib Require String.
Import ListNotations.
Open Scope R_scope.

(** ** Numbers *)

(** [Math.pow] at a natural exponent and [Math.sqrt]. *)
Module Math.
Definition pow (base : R) (exponent : nat) : R := base ^ exponent.
Definition sqrt (v : R) : R := R_sqrt.sqrt v.
End Math.

(** The comparison [a < b] as a boolean. *)
Definition ltb (a b : R) : bool := if Rlt_dec a b then true else false.

(** ** utils/geometryUtils.ts *)

(** A point [{x, y}]. *)
Module Point.
Record t : Type := mk { x : R; y : R }.
End Point.

Definition calculateDistance (p1 p2 : Point.t) : R :=
  Math.sqrt (Math.pow (Point.x p2 - Point.x p1) 2
             + Math.pow (Point.y p2 - Point.y p1) 2).


(** ** Data of a frame *)

(** A landmark of the detector: [{x, y, z}], normalised to the frame. *)
Module Landmark.
Record t : Type := mk { x : R; y : R; z : R }.
End Landmark.

(** One detected hand: the array of its landmarks (21 of them from the
    detector; the code reads indices 4 and 8). *)
Definition Hand : Type := list Landmark.t.

(** The value of [landmarker.detectForVideo]; [landmarks] may be missing. *)
Record HandLandmarkerResult : Type :=
  { landmarks : option (list Hand) }.

Record Window : Type := { innerWidth : R; innerHeight : R }.

(** What one animation frame sees: whether the guard
    [landmarker && videoRef.current && videoRef.current.currentTime > 0]
    passes, the window, and the detection result for the video frame. *)
Record Tick : Type :=
  { video_ready : bool;
    window : Window;
    results : HandLandmarkerResult }.

(** ** State, output and exceptions *)

Record State : Type := { wasPinching : bool; isDrawing : bool }.

(** [let wasPinching = false] and [useState(false)]. *)
Definition initial : State := {| wasPinching := false; isDrawing := false |}.

Inductive EventName : Type := mousedown | mousemove | mouseup.

(** A call [triggerEvent(eventName, x, y)]. *)
Inductive Call : Type := TriggerEvent (eventName : EventName) (x y : R).

Inductive Error : Type := TypeError.

Inductive Completion (A : Type) : Type :=
| Normal (a : A)
| Throw (e : Error).
Arguments Normal {A} a.
Arguments Throw {A} e.

(** A computation reads and writes the state, appends to the trace of
    calls, and completes normally or throws. *)
Definition M (A : Type) : Type := State -> Completion A * State * list Call.

Definition ret {A} (a : A) : M A := fun s => (Normal a, s, []).

Definition bind {A B} (m : M A) (f : A -> M B) : M B :=
  fun s =>
    match m s with
    | (Normal a, s1, out1) =>
        let '(r, s2, out2) := f a s1 in (r, s2, out1 ++ out2)
    | (Throw e, s1, out1) => (Throw e, s1, out1)
    end.

Definition throw {A} (e : Error) : M A := fun s => (Throw e, s, []).

Notation "x <- m ;; k" := (bind m (fun x => k))
  (at level 61, m at next level, right associativity).
Notation "m ;; k" := (bind m (fun _ => k))
  (at level 61, right associativity).

Definition get_wasPinching : M bool := fun s => (Normal (wasPinching s), s, []).

Definition set_wasPinching (b : bool) : M unit :=
  fun s => (Normal tt, {| wasPinching := b; isDrawing := isDrawing s |}, []).

Definition setIsDrawing (b : bool) : M unit :=
  fun s => (Normal tt, {| wasPinching := wasPinching s; isDrawing := b |}, []).

Definition triggerEvent (eventName : EventName) (x y : R) : M unit :=
  fun s => (Normal tt, s, [TriggerEvent eventName x y]).

(** Reading a property of an array element: [undefined.x] throws. *)
Definition deref {A} (o : option A) : M A :=
  match o with
  | Some a => ret a
  | None => throw TypeError
  end.

(** ** client/src/App.tsx: the gesture logic *)

Definition PINCH_THRESHOLD : R := 0.05.

Definition predictWebcam (tick : Tick) : M unit :=
  if video_ready tick then
    match landmarks (results tick) with
    | Some (hand :: _) =>
        thumbTip <- deref (nth_error hand 4) ;;
        indexTip <- deref (nth_error hand 8) ;;
        let distance :=
          calculateDistance
            (Point.mk (Landmark.x thumbTip) (Landmark.y thumbTip))
            (Point.mk (Landmark.x indexTip) (Landmark.y indexTip)) in
        let isPinching := ltb distance PINCH_THRESHOLD in
        let x := (1 - Landmark.x indexTip) * innerWidth (window tick) in
        let y := Landmark.y indexTip * innerHeight (window tick) in
        was <- get_wasPinching ;;
        (if isPinching then
           if negb was then
             triggerEvent mousedown x y ;;
             setIsDrawing true
           else
             triggerEvent mousemove x y
         else
           (if was then
              triggerEvent mouseup x y ;;
              setIsDrawing false
            else ret tt) ;;
           triggerEvent mousemove x y) ;;
        set_wasPinching isPinching
    | _ => ret tt
    end
  else ret tt.

(** The frame loop: [predictWebcam] ends by requesting the next frame, so
    the frames are run in sequence until one throws. *)
Fixpoint frameLoop (ticks : list Tick) : M unit :=
  match ticks with
  | [] => ret tt
  | tick :: rest => predictWebcam tick ;; frameLoop rest
  end.

(** ** [triggerEvent] on the document *)

(** Whether [fabricCanvasRef.current] is set, and whether
    [document.querySelector('.upper-canvas')] finds an element. *)
Record Document : Type :=
  { fabricCanvasRef_current : bool;
    upper_canvas : bool }.

Record MouseEvent : Type :=
  { type : EventName;
    bubbles : bool;
    cancelable : bool;
    clientX : R;
    clientY : R }.

(** The body of [triggerEvent]: the events that a call dispatches on the
    upper canvas, none when the guards fail. *)
Definition dispatch (doc : Document) (c : Call) : list MouseEvent :=
  let 'TriggerEvent eventName x y := c in
  if negb (fabricCanvasRef_current doc) then []
  else
    let event :=
      {| type := eventName; bubbles := true; cancelable := true;
         clientX := x; clientY := y |} in
    if upper_canvas doc then [event] else [].

Definition dispatched (doc : Document) (calls : list Call) : list MouseEvent :=
  flat_map (dispatch doc) calls.

(** ** Observations used in the statements *)

Definition completion {A} (r : Completion A * State * list Call) : Completion A :=
  fst (fst r).
Definition state_after {A} (r : Completion A * State * list Call) : State :=
  snd (fst r).
Definition calls {A} (r : Completion A * State * list Call) : list Call :=
  snd r.

Definition name_of (c : Call) : EventName :=
  let 'TriggerEvent eventName _ _ := c in eventName.

Definition names (l : list Call) : list EventName := map name_of l.

(** The hand that a frame works on: the first of the detected hands, when
    the guard passes and there is one. *)
Definition firstHand (tick : Tick) : option Hand :=
  if video_ready tick then
    match landmarks (results tick) with
    | Some (hand :: _) => Some hand
    | _ => None
    end
  else None.

(** Thumb tip and index fingertip of that hand, when it has both. *)
Definition fingertips (tick : Tick) : option (Landmark.t * Landmark.t) :=
  match firstHand tick with
  | Some hand =>
      match nth_error hand 4, nth_error hand 8 with
      | Some thumbTip, Some indexTip => Some (thumbTip, indexTip)
      | _, _ => None
      end
  | None => None
  end.

(** The planar distance between two landmarks, written out. *)
Definition planar (a b : Landmark.t) : R :=
  sqrt ((Landmark.x b - Landmark.x a) * (Landmark.x b - Landmark.x a)
        + (Landmark.y b - Landmark.y a) * (Landmark.y b - Landmark.y a)).

(** How a frame with a hand is classified. *)
Definition pinching (tick : Tick) : option bool :=
  match fingertips tick with
  | Some (thumbTip, indexTip) => Some (ltb (planar thumbTip indexTip) PINCH_THRESHOLD)
  | None => None
  end.

(** Down and up alternate, starting from [drawing]; moves are free. *)
Fixpoint alternating (drawing : bool) (l : list EventName) : bool :=
  match l with
  | [] => true
  | mousemove :: rest => alternating drawing rest
  | mousedown :: rest => negb drawing && alternating true rest
  | mouseup :: rest => drawing && alternating false rest
  end.

(** The calls of a frame with a hand, by classification and previous state. *)
Definition emitted (isPinching was : bool) (x y : R) : list Call :=
  if isPinching then
    if was then [TriggerEvent mousemove x y] else [TriggerEvent mousedown x y]
  else
    if was then [TriggerEvent mouseup x y; TriggerEvent mousemove x y]
    else [TriggerEvent mousemove x y].

(** The indicator after a frame with a hand. *)
Definition drawing_after (isPinching : bool) (s : State) : bool :=
  if isPinching then (if wasPinching s then isDrawing s else true)
  else (if wasPinching s then false else isDrawing s).

(** ** Sample frames *)

Definition origin : Landmark.t := Landmark.mk 0 0 0.

(** A hand of 21 landmarks with the given thumb tip and index fingertip. *)
Definition hand_with (thumbTip indexTip : Landmark.t) : Hand :=
  [origin; origin; origin; origin; thumbTip; origin; origin; origin; indexTip;
   origin; origin; origin; origin; origin; origin; origin; origin; origin;
   origin; origin; origin].

Definition frame_with (w : Window) (hands : list Hand) : Tick :=
  {| video_ready := true; window := w; results := {| landmarks := Some hands |} |}.

Definition canvas_1000_800 : Window := {| innerWidth := 1000; innerHeight := 800 |}.

(** Thumb at (0.50, 0.50) and index at (0.52, 0.50): a pinch. *)
Definition pinch_frame : Tick :=
  frame_with canvas_1000_800
    [hand_with (Landmark.mk 0.5 0.5 0) (Landmark.mk 0.52 0.5 0)].

(** Thumb at (0.10, 0.10) and index at (0.90, 0.90): an open hand. *)
Definition open_frame : Tick :=
  frame_with canvas_1000_800
    [hand_with (Landmark.mk 0.1 0.1 0) (Landmark.mk 0.9 0.9 0)].

Definition no_hand_frame : Tick := frame_with canvas_1000_800 [].

Definition drawing : State := {| wasPinching := true; isDrawing := true |}.

(** Thumb at the origin and index at (0.05, 0): exactly at the threshold. *)
Definition boundary_frame : Tick :=
  frame_with canvas_1000_800 [hand_with origin (Landmark.mk 0.05 0 0)].

(** The open hand with other depths and other landmarks elsewhere. *)
Definition open_frame_deep : Tick :=
  frame_with canvas_1000_800
    [ [Landmark.mk 1 1 1; origin; Landmark.mk 0.3 0.3 0.3; origin;
       Landmark.mk 0.1 0.1 7; origin; origin; origin; Landmark.mk 0.9 0.9 (-2);
       origin; origin; origin; origin; origin; origin; origin; origin; origin;
       origin; origin; Landmark.mk 0.5 0.5 0.5] ].

(** ** utils/drawUtils.ts and the overlay *)

(** A canvas, and with it its 2d context: [canvasContext.canvas.width] and
    [canvasContext.canvas.height]. *)
Record Canvas : Type := { width : R; height : R }.

(** What is painted: [clearRect] of the context, and the two calls to the
    detector's [DrawingUtils], with the style they are given (the
    connections drawn are the library's [HAND_CONNECTIONS]). *)
Inductive DrawOp : Type :=
| ClearRect (x y w h : R)
| DrawConnectors (landmark : Hand) (color : String.string) (lineWidth : R)
| DrawLandmarks (landmark : Hand) (color : String.string) (lineWidth radius : R).

Module drawUtils.
Import String.

(** The body of the [for] loop, for one hand. *)
Definition drawHand (landmark : Hand) : list DrawOp :=
  [DrawConnectors landmark "#00FF00"%string 5;
   DrawLandmarks landmark "#FF0000"%string 2 3].

(** [drawLandmarks(canvasContext, landmarks)]: nothing without a context or
    without landmarks; else one [clearRect] and then every hand in turn. *)
Definition drawLandmarks
    (canvasContext : option Canvas) (landmarks : option (list Hand)) : list DrawOp :=
  match canvasContext, landmarks with
  | Some canvas, Some hands =>
      ClearRect 0 0 (width canvas) (height canvas) :: flat_map drawHand hands
  | _, _ => []
  end.

End drawUtils.

(** [overlayCanvasRef.current], and whether its [getContext('2d')] gives a
    context. *)
Record Overlay : Type :=
  { overlayCanvasRef_current : option Canvas;
    getContext_2d : bool }.

(** The overlay part of [predictWebcam] (the statements between the
    detection and the gesture logic), under the same guard. *)
Definition predictWebcam_overlay (overlay : Overlay) (tick : Tick) : list DrawOp :=
  if video_ready tick then
    match overlayCanvasRef_current overlay with
    | Some canvas =>
        if getContext_2d overlay then
          ClearRect 0 0 (width canvas) (height canvas)
          :: match landmarks (results tick) with
             | Some hands => drawUtils.drawLandmarks (Some canvas) (Some hands)
             | None => []
             end
        else []
    | None => []
    end
  else [].

Definition is_clear (op : DrawOp) : bool :=
  match op with
  | ClearRect _ _ _ _ => true
  | _ => false
  end.

(** ** The mode label of the page *)

Module Page.
Import String.

(** [isDrawing ? ... : ...] in the markup that [App] returns. *)
Definition modeLabel (isDrawing : bool) : string :=
  if isDrawing then "🖊️ Drawing Mode"%string
  else "✋ Hover Mode (Pinch to Draw)"%string.

End Page.

(** ** Further observations *)

(** The mouse event that a call builds. *)
Definition event_of (c : Call) : MouseEvent :=
  let 'TriggerEvent eventName x y := c in
  {| type := eventName; bubbles := true; cancelable := true;
     clientX := x; clientY := y |}.

Definition EventName_eqb (a b : EventName) : bool :=
  match a, b with
  | mousedown, mousedown | mousemove, mousemove | mouseup, mouseup => true
  | _, _ => false
  end.

(** How often an event name occurs in a trace. *)
Definition occurrences (e : EventName) (l : list EventName) : nat :=
  length (filter (EventName_eqb e) l).

(** Whether a frame has a first hand to work on. *)
Definition hasHand (tick : Tick) : bool :=
  match firstHand tick with
  | Some _ => true
  | None => false
  end.

(** A hand with only five landmarks: a thumb tip, but no index fingertip. *)
Definition short_hand_frame : Tick :=
  frame_with canvas_1000_800
    [ [origin; origin; origin; origin; Landmark.mk 0.5 0.5 0] ].

Definition mounted : Document :=
  {| fabricCanvasRef_current := true; upper_canvas := true |}.

Definition no_upper_canvas : Document :=
  {| fabricCanvasRef_current := true; upper_canvas := false |}.

Definition overlay_1000_800 : Overlay :=
  {| overlayCanvasRef_current := Some {| width := 1000; height := 800 |};
     getContext_2d := true |}.

(** * Lemmas *)

(** ** Basic facts *)

Lemma ltb_true (a b : R) : ltb a b = true <-> a < b.
Proof.
  unfold ltb. destruct (Rlt_dec a b) as [H | H]; split; intro K;
    try reflexivity; try assumption; try discriminate. contradiction.
Qed.

Lemma ltb_false (a b : R) : ltb a b = false <-> b <= a.
Proof.
  unfold ltb. destruct (Rlt_dec a b) as [H | H]; split; intro K;
    try reflexivity; try discriminate; lra.
Qed.

Lemma calculateDistance_planar (a b : Landmark.t) :
  calculateDistance (Point.mk (Landmark.x a) (Landmark.y a))
                    (Point.mk (Landmark.x b) (Landmark.y b))
  = planar a b.
Proof.
  unfold calculateDistance, planar, Math.sqrt, Math.pow. simpl.
  f_equal. ring.
Qed.

(** Below a positive bound, a square root is compared by squaring. *)
Lemma sqrt_lt_bound (v c : R) : 0 <= v -> 0 < c -> (sqrt v < c <-> v < c * c).
Proof.
  intros Hv Hc. rewrite <- (sqrt_square c) at 1 by lra. split; intro H.
  - apply sqrt_lt_0_alt in H. exact H.
  - apply sqrt_lt_1_alt. lra.
Qed.

Lemma bind_ret_l {A B} (a : A) (f : A -> M B) (s : State) :
  bind (ret a) f s = f a s.
Proof. unfold bind, ret. destruct (f a s) as [[r s2] out2]. reflexivity. Qed.

Lemma bind_assoc {A B C} (m : M A) (f : A -> M B) (g : B -> M C) (s : State) :
  bind (bind m f) g s = bind m (fun a => bind (f a) g) s.
Proof.
  unfold bind. destruct (m s) as [[[a | e] s1] out1]; [ | reflexivity ].
  destruct (f a s1) as [[[b | e] s2] out2]; [ | reflexivity ].
  destruct (g b s2) as [[r s3] out3]. now rewrite app_assoc.
Qed.

Lemma bind_ext {A B} (m : M A) (f g : A -> M B) (s : State) :
  (forall a s1, f a s1 = g a s1) -> bind m f s = bind m g s.
Proof.
  intro H. unfold bind. destruct (m s) as [[[a | e] s1] out1]; [ | reflexivity ].
  now rewrite H.
Qed.

Lemma frameLoop_app (pre post : list Tick) (s : State) :
  frameLoop (pre ++ post) s = (frameLoop pre ;; frameLoop post) s.
Proof.
  revert s. induction pre as [ | tick pre IH ]; intro s; simpl.
  - now rewrite bind_ret_l.
  - rewrite bind_assoc. apply bind_ext. intros _ s1. apply IH.
Qed.

(** [triggerEvent] reaches the drawing surface only when it is mounted. *)
Lemma dispatch_mounted (doc : Document) (eventName : EventName) (x y : R) :
  fabricCanvasRef_current doc = true ->
  upper_canvas doc = true ->
  dispatch doc (TriggerEvent eventName x y) =
  [ {| type := eventName; bubbles := true; cancelable := true;
       clientX := x; clientY := y |} ].
Proof. intros Hc Hu. unfold dispatch. now rewrite Hc, Hu. Qed.

Lemma dispatch_unmounted (doc : Document) (c : Call) :
  fabricCanvasRef_current doc = false \/ upper_canvas doc = false ->
  dispatch doc c = [].
Proof.
  destruct c as [eventName x y]. unfold dispatch.
  intros [-> | ->]; [ reflexivity | ].
  now destruct (fabricCanvasRef_current doc).
Qed.

(** ** One frame, case by case *)

Lemma fingertips_inv (tick : Tick) (thumbTip indexTip : Landmark.t) :
  fingertips tick = Some (thumbTip, indexTip) ->
  exists hand others,
    video_ready tick = true /\
    landmarks (results tick) = Some (hand :: others) /\
    nth_error hand 4 = Some thumbTip /\
    nth_error hand 8 = Some indexTip.
Proof.
  unfold fingertips, firstHand. intro H.
  destruct (video_ready tick); [ | discriminate ].
  destruct (landmarks (results tick)) as [[ | hand others] | ]; try discriminate.
  destruct (nth_error hand 4) as [t | ] eqn:E4; [ | discriminate ].
  destruct (nth_error hand 8) as [i | ] eqn:E8; [ | discriminate ].
  injection H as -> ->. now exists hand, others.
Qed.

Lemma fingertips_intro (tick : Tick) (hand : Hand) (thumbTip indexTip : Landmark.t) :
  firstHand tick = Some hand ->
  nth_error hand 4 = Some thumbTip ->
  nth_error hand 8 = Some indexTip ->
  fingertips tick = Some (thumbTip, indexTip).
Proof. intros H H4 H8. unfold fingertips. now rewrite H, H4, H8. Qed.

Lemma predictWebcam_hand (tick : Tick) (thumbTip indexTip : Landmark.t) (s : State) :
  fingertips tick = Some (thumbTip, indexTip) ->
  predictWebcam tick s =
    (Normal tt,
     {| wasPinching := ltb (planar thumbTip indexTip) PINCH_THRESHOLD;
        isDrawing := drawing_after (ltb (planar thumbTip indexTip) PINCH_THRESHOLD) s |},
     emitted (ltb (planar thumbTip indexTip) PINCH_THRESHOLD) (wasPinching s)
             ((1 - Landmark.x indexTip) * innerWidth (window tick))
             (Landmark.y indexTip * innerHeight (window tick))).
Proof.
  intro H. destruct (fingertips_inv _ _ _ H) as (hand & others & Hv & Hl & H4 & H8).
  unfold predictWebcam. rewrite Hv, Hl, H4, H8. simpl deref.
  rewrite !bind_ret_l, calculateDistance_planar.
  unfold emitted, drawing_after.
  destruct s as [was drawing].
  destruct (ltb (planar thumbTip indexTip) PINCH_THRESHOLD), was; reflexivity.
Qed.

Lemma predictWebcam_no_hand (tick : Tick) (s : State) :
  firstHand tick = None -> predictWebcam tick s = (Normal tt, s, []).
Proof.
  unfold firstHand, predictWebcam. intro H.
  destruct (video_ready tick); [ | reflexivity ].
  destruct (landmarks (results tick)) as [[ | hand others] | ];
    try reflexivity; discriminate.
Qed.

Lemma predictWebcam_short_hand (tick : Tick) (hand : Hand) (s : State) :
  firstHand tick = Some hand -> fingertips tick = None ->
  predictWebcam tick s = (Throw TypeError, s, []).
Proof.
  unfold fingertips. intros H. rewrite H. revert H.
  unfold firstHand, predictWebcam.
  destruct (video_ready tick); [ | discriminate ].
  destruct (landmarks (results tick)) as [[ | hand' others] | ]; try discriminate.
  intro E. injection E as ->.
  destruct (nth_error hand 4) as [t | ]; [ | reflexivity ].
  destruct (nth_error hand 8) as [i | ]; [ discriminate | reflexivity ].
Qed.

(** A frame leaves the loop in one of three ways. *)
Lemma predictWebcam_cases (tick : Tick) (s : State) :
  (exists thumbTip indexTip, fingertips tick = Some (thumbTip, indexTip))
  \/ predictWebcam tick s = (Normal tt, s, [])
  \/ predictWebcam tick s = (Throw TypeError, s, []).
Proof.
  destruct (fingertips tick) as [[t i] | ] eqn:F.
  - left. now exists t, i.
  - right. destruct (firstHand tick) as [hand | ] eqn:E.
    + right. now apply predictWebcam_short_hand with hand.
    + left. now apply predictWebcam_no_hand.
Qed.

(** ** The sample frames *)

Lemma planar_pinch_frame :
  planar (Landmark.mk 0.5 0.5 0) (Landmark.mk 0.52 0.5 0) = 0.02.
Proof.
  unfold planar. simpl.
  replace ((0.52 - 0.5) * (0.52 - 0.5) + (0.5 - 0.5) * (0.5 - 0.5))
    with (0.02 * 0.02) by lra.
  apply sqrt_square. lra.
Qed.

Lemma pinch_frame_pinching : pinching pinch_frame = Some true.
Proof.
  unfold pinching. simpl. rewrite planar_pinch_frame. f_equal.
  apply ltb_true. unfold PINCH_THRESHOLD. lra.
Qed.

Lemma open_frame_not_pinching : pinching open_frame = Some false.
Proof.
  unfold pinching. simpl. f_equal. apply ltb_false.
  unfold planar, PINCH_THRESHOLD. simpl.
  destruct (Rle_or_lt 0.05
    (sqrt ((0.9 - 0.1) * (0.9 - 0.1) + (0.9 - 0.1) * (0.9 - 0.1)))) as [H | H];
    [ exact H | ].
  apply sqrt_lt_bound in H; lra.
Qed.

Lemma boundary_distance :
  calculateDistance (Point.mk 0 0) (Point.mk 0.05 0) = 0.05.
Proof.
  unfold calculateDistance, Math.sqrt, Math.pow. simpl.
  replace ((0.05 - 0) * ((0.05 - 0) * 1) + (0 - 0) * ((0 - 0) * 1))
    with (0.05 * 0.05) by lra.
  apply sqrt_square. lra.
Qed.

Lemma open_frame_distance :
  0.05 <=
  calculateDistance (Point.mk (Landmark.x (Landmark.mk 0.1 0.1 0))
                              (Landmark.y (Landmark.mk 0.1 0.1 0)))
                    (Point.mk (Landmark.x (Landmark.mk 0.9 0.9 0))
                              (Landmark.y (Landmark.mk 0.9 0.9 0))).
Proof.
  rewrite calculateDistance_planar. apply ltb_false.
  generalize open_frame_not_pinching. unfold pinching. simpl.
  intro E. now injection E.
Qed.

Lemma open_frame_release :
  calls (predictWebcam open_frame drawing) =
  [TriggerEvent mouseup 100 720; TriggerEvent mousemove 100 720].
Proof.
  rewrite (predictWebcam_hand open_frame _ _ drawing eq_refl).
  generalize open_frame_not_pinching. unfold pinching. simpl fingertips.
  intro E. injection E as ->. unfold calls. simpl.
  repeat f_equal; lra.
Qed.

(** ** The loop *)

Lemma frameLoop_cons_normal (tick : Tick) (rest : list Tick) (s s1 : State)
    (out1 : list Call) :
  predictWebcam tick s = (Normal tt, s1, out1) ->
  frameLoop (tick :: rest) s =
  (completion (frameLoop rest s1), state_after (frameLoop rest s1),
   out1 ++ calls (frameLoop rest s1)).
Proof.
  intro E. simpl. unfold bind. rewrite E.
  destruct (frameLoop rest s1) as [[r s2] out2]. reflexivity.
Qed.

Lemma frameLoop_cons_throw (tick : Tick) (rest : list Tick) (s s1 : State)
    (e : Error) (out1 : list Call) :
  predictWebcam tick s = (Throw e, s1, out1) ->
  frameLoop (tick :: rest) s = (Throw e, s1, out1).
Proof. intro E. simpl. unfold bind. now rewrite E. Qed.

Lemma frameLoop_app_normal (pre post : list Tick) (s : State) :
  completion (frameLoop pre s) = Normal tt ->
  frameLoop (pre ++ post) s =
  (completion (frameLoop post (state_after (frameLoop pre s))),
   state_after (frameLoop post (state_after (frameLoop pre s))),
   calls (frameLoop pre s) ++ calls (frameLoop post (state_after (frameLoop pre s)))).
Proof.
  rewrite frameLoop_app. unfold bind.
  destruct (frameLoop pre s) as [[r s1] out1].
  unfold completion, state_after, calls. simpl. intros ->.
  destruct (frameLoop post s1) as [[r2 s2] out2]. reflexivity.
Qed.

Lemma pinching_inv (tick : Tick) (b : bool) :
  pinching tick = Some b ->
  exists thumbTip indexTip,
    fingertips tick = Some (thumbTip, indexTip)
    /\ ltb (planar thumbTip indexTip) PINCH_THRESHOLD = b.
Proof.
  unfold pinching. destruct (fingertips tick) as [[t i] | ]; [ | discriminate ].
  intro E. injection E as <-. now exists t, i.
Qed.

Lemma pinching_hand (tick : Tick) :
  pinching tick <> None ->
  exists b, pinching tick = Some b.
Proof. destruct (pinching tick) as [b | ]; [ now exists b | congruence ]. Qed.

(** A frame classified [b]: what it does to a state and to the trace. *)
Lemma predictWebcam_pinching (tick : Tick) (b : bool) (s : State) :
  pinching tick = Some b ->
  completion (predictWebcam tick s) = Normal tt
  /\ state_after (predictWebcam tick s) =
     {| wasPinching := b; isDrawing := drawing_after b s |}
  /\ names (calls (predictWebcam tick s)) =
     if b then (if wasPinching s then [mousemove] else [mousedown])
     else (if wasPinching s then [mouseup; mousemove] else [mousemove]).
Proof.
  intro P. destruct (pinching_inv _ _ P) as (t & i & F & <-).
  rewrite (predictWebcam_hand _ _ _ s F). unfold completion, state_after, calls.
  simpl. repeat split.
  unfold emitted. destruct (ltb _ _), (wasPinching s); reflexivity.
Qed.

(** Runs the frame at the head of the loop, classified by [P], from [s]:
    [E] names what the frame returns and [N] the names of its calls. *)
Ltac frame_step P s E N :=
  let C := fresh "C" in
  let S := fresh "S" in
  let r := fresh "r" in
  let s1 := fresh "s1" in
  let out1 := fresh "out1" in
  match type of P with
  | pinching ?tick = Some ?b =>
      destruct (predictWebcam_pinching tick b s P) as (C & S & N);
      destruct (predictWebcam tick s) as [[r s1] out1] eqn:E;
      unfold completion, state_after, calls in C, S, N;
      simpl in C, S, N; subst r s1;
      rewrite (frameLoop_cons_normal _ _ _ _ _ E)
  end.

(** The frame and the loop always leave [isDrawing] equal to [wasPinching]
    when they found them equal. *)
Lemma predictWebcam_indicator (tick : Tick) (s : State) :
  isDrawing s = wasPinching s ->
  isDrawing (state_after (predictWebcam tick s))
  = wasPinching (state_after (predictWebcam tick s)).
Proof.
  intro I. destruct (predictWebcam_cases tick s) as [(t & i & F) | [E | E]].
  - rewrite (predictWebcam_hand _ _ _ s F). unfold state_after. simpl.
    unfold drawing_after. destruct (ltb _ _), (wasPinching s); auto.
  - now rewrite E.
  - now rewrite E.
Qed.

Lemma frameLoop_indicator (ticks : list Tick) (s : State) :
  isDrawing s = wasPinching s ->
  isDrawing (state_after (frameLoop ticks s))
  = wasPinching (state_after (frameLoop ticks s)).
Proof.
  revert s. induction ticks as [ | tick rest IH ]; intros s I; [ exact I | ].
  pose proof (predictWebcam_indicator tick s I) as I1.
  destruct (predictWebcam tick s) as [[[[] | e] s1] out1] eqn:E.
  - rewrite (frameLoop_cons_normal _ _ _ _ _ E). apply IH. exact I1.
  - rewrite (frameLoop_cons_throw _ _ _ _ _ _ E). exact I1.
Qed.

Lemma frameLoop_single (tick : Tick) (s : State) :
  frameLoop [tick] s = predictWebcam tick s.
Proof.
  simpl. unfold bind, ret.
  destruct (predictWebcam tick s) as [[[[] | e] s1] out1]; [ | reflexivity ].
  now rewrite app_nil_r.
Qed.

Lemma frameLoop_app_names (pre post : list Tick) (s s1 : State) :
  completion (frameLoop pre s) = Normal tt ->
  state_after (frameLoop pre s) = s1 ->
  names (calls (frameLoop (pre ++ post) s)) =
  names (calls (frameLoop pre s)) ++ names (calls (frameLoop post s1)).
Proof.
  intros C <-. rewrite (frameLoop_app_normal _ _ _ C).
  unfold calls at 1. simpl snd. unfold names. apply map_app.
Qed.

(** Frames with a hand never throw. *)
Lemma frameLoop_hands (ticks : list Tick) (s : State) :
  Forall (fun tick => pinching tick <> None) ticks ->
  completion (frameLoop ticks s) = Normal tt.
Proof.
  revert s. induction ticks as [ | tick rest IH ]; intros s F; [ reflexivity | ].
  inversion F as [ | ? ? Hd Tl ]; subst.
  destruct (pinching_hand _ Hd) as [b P].
  frame_step P s E Hn. now apply IH.
Qed.

(** After frames with a hand, [wasPinching] is the last classification. *)
Lemma frameLoop_last (ticks : list Tick) (tick : Tick) (b : bool) (s : State) :
  Forall (fun tick => pinching tick <> None) ticks ->
  pinching tick = Some b ->
  wasPinching (state_after (frameLoop (ticks ++ [tick]) s)) = b.
Proof.
  intros F P. rewrite (frameLoop_app_normal _ _ _ (frameLoop_hands _ s F)).
  unfold state_after at 1. cbn [fst snd]. rewrite frameLoop_single.
  destruct (predictWebcam_pinching tick b (state_after (frameLoop ticks s)) P)
    as (_ & -> & _).
  reflexivity.
Qed.

(** While the pinch lasts, each frame moves. *)
Lemma frameLoop_pinch_held (run : list Tick) :
  Forall (fun tick => pinching tick = Some true) run ->
  completion (frameLoop run drawing) = Normal tt
  /\ state_after (frameLoop run drawing) = drawing
  /\ names (calls (frameLoop run drawing)) = repeat mousemove (length run).
Proof.
  induction run as [ | tick rest IH ]; intro F; [ now repeat split | ].
  inversion F as [ | ? ? Hd Tl ]; subst.
  frame_step Hd drawing E Hn.
  destruct (IH Tl) as (C' & S' & N').
  unfold completion, state_after, calls in *. cbn [fst snd length repeat].
  repeat split; auto.
  unfold names in *. rewrite map_app, Hn. simpl. f_equal. exact N'.
Qed.

Lemma alternating_frame (b was : bool) (l : list EventName) :
  alternating was
    ((if b then (if was then [mousemove] else [mousedown])
      else (if was then [mouseup; mousemove] else [mousemove])) ++ l)
  = alternating b l.
Proof. destruct b, was; reflexivity. Qed.

Lemma frameLoop_alternating (ticks : list Tick) (s : State) :
  alternating (wasPinching s) (names (calls (frameLoop ticks s))) = true.
Proof.
  revert s. induction ticks as [ | tick rest IH ]; intro s; [ reflexivity | ].
  destruct (predictWebcam_cases tick s) as [(t & i & F) | [E | E]].
  - assert (P : pinching tick = Some (ltb (planar t i) PINCH_THRESHOLD))
      by (unfold pinching; now rewrite F).
    frame_step P s E Hn.
    unfold calls at 1. simpl snd. unfold names at 1. rewrite map_app.
    fold (names out1). rewrite Hn, alternating_frame. apply (IH {| wasPinching := _ |}).
  - rewrite (frameLoop_cons_normal _ _ _ _ _ E). apply IH.
  - rewrite (frameLoop_cons_throw _ _ _ _ _ _ E). reflexivity.
Qed.

Lemma alternating_no_repeat (l1 l2 : list EventName) (e : EventName) (d : bool) :
  alternating d (l1 ++ e :: e :: l2) = true -> e = mousemove.
Proof.
  revert d. induction l1 as [ | a l1 IH ]; intros d H.
  - destruct e, d; simpl in H; try reflexivity; discriminate.
  - destruct a; simpl in H.
    + apply andb_true_iff in H. destruct H as [_ H]. now apply IH in H.
    + now apply IH in H.
    + apply andb_true_iff in H. destruct H as [_ H]. now apply IH in H.
Qed.

(** Before a pinch starts (at the start of the loop, or right after a
    frame with an open hand) the loop is back in its initial state. *)
Lemma frameLoop_idle (pre : list Tick) :
  Forall (fun tick => pinching tick <> None) pre ->
  pre = [] \/
  (exists before last, pre = before ++ [last] /\ pinching last = Some false) ->
  completion (frameLoop pre initial) = Normal tt
  /\ state_after (frameLoop pre initial) = initial.
Proof.
  intros F L. split; [ now apply frameLoop_hands | ].
  pose proof (frameLoop_indicator pre initial eq_refl) as I.
  assert (W : wasPinching (state_after (frameLoop pre initial)) = false).
  { destruct L as [-> | (before & last & -> & P)]; [ reflexivity | ].
    apply Forall_app in F. destruct F as [F _]. now apply frameLoop_last. }
  destruct (state_after (frameLoop pre initial)) as [w d].
  simpl in I, W. subst. reflexivity.
Qed.

(** A pinch that starts from the initial state: one down, then moves. *)
Lemma frameLoop_pinch_start (run : list Tick) :
  run <> [] ->
  Forall (fun tick => pinching tick = Some true) run ->
  completion (frameLoop run initial) = Normal tt
  /\ state_after (frameLoop run initial) = drawing
  /\ names (calls (frameLoop run initial)) =
     mousedown :: repeat mousemove (length run - 1).
Proof.
  destruct run as [ | first more ]; [ congruence | ]. intros _ F.
  inversion F as [ | ? ? Hd Tl ]; subst.
  frame_step Hd initial E Hn.
  destruct (frameLoop_pinch_held more Tl) as (C' & S' & N').
  replace (length (first :: more) - 1)%nat with (length more) by (simpl; lia).
  unfold completion, state_after, calls. cbn [fst snd]. repeat split.
  - exact C'.
  - exact S'.
  - unfold names in *. rewrite map_app, Hn. simpl. f_equal. exact N'.
Qed.

(** The release: up, then the hover move, and the loop is idle again. *)
Lemma frameLoop_release (rel : Tick) :
  pinching rel = Some false ->
  completion (frameLoop [rel] drawing) = Normal tt
  /\ state_after (frameLoop [rel] drawing) = initial
  /\ names (calls (frameLoop [rel] drawing)) = [mouseup; mousemove].
Proof.
  intro P. rewrite frameLoop_single.
  destruct (predictWebcam_pinching rel false drawing P) as (C & S & N).
  now repeat split.
Qed.

(** Pinch, release, pinch: the second pinch is still held at the end. *)
Lemma pinch_release_pinch_trace :
  names (calls (frameLoop [pinch_frame; open_frame; pinch_frame] initial)) =
  [mousedown; mouseup; mousemove; mousedown].
Proof.
  assert (P : Forall (fun tick => pinching tick = Some true) [pinch_frame])
    by (repeat constructor; exact pinch_frame_pinching).
  assert (Hne : [pinch_frame] <> []) by discriminate.
  destruct (frameLoop_pinch_start [pinch_frame] Hne P) as (C1 & S1 & N1).
  destruct (frameLoop_release open_frame open_frame_not_pinching) as (C2 & S2 & N2).
  change [pinch_frame; open_frame; pinch_frame]
    with ([pinch_frame] ++ [open_frame] ++ [pinch_frame]).
  rewrite (frameLoop_app_names [pinch_frame] _ initial drawing C1 S1).
  rewrite (frameLoop_app_names [open_frame] _ drawing initial C2 S2).
  rewrite N1, N2. reflexivity.
Qed.

(** * The claims *)

(** ** The distance and the threshold *)

(** C10. [calculateDistance] is symmetric in its two points, and its
    result is never negative. *)
Theorem calculateDistance_symmetric_nonneg (p1 p2 : Point.t) :
  calculateDistance p1 p2 = calculateDistance p2 p1
  /\ 0 <= calculateDistance p1 p2.
Proof.
  unfold calculateDistance, Math.sqrt, Math.pow. split.
  - f_equal. ring.
  - apply sqrt_pos.
Qed.

(** C2. The classification of a distance [d] is "pinching" exactly when
    [d < 0.05]; from 0.05 on, the boundary included, it is "not pinching";
    and this is the classification that a frame whose fingertips are at
    distance [d] stores as the next pinch state. *)
Theorem pinch_threshold_strict (d : R) :
  (ltb d PINCH_THRESHOLD = true <-> d < 0.05)
  /\ (0.05 <= d -> ltb d PINCH_THRESHOLD = false)
  /\ ltb 0.05 PINCH_THRESHOLD = false
  /\ forall (tick : Tick) (thumbTip indexTip : Landmark.t) (s : State),
       fingertips tick = Some (thumbTip, indexTip) ->
       calculateDistance
         (Point.mk (Landmark.x thumbTip) (Landmark.y thumbTip))
         (Point.mk (Landmark.x indexTip) (Landmark.y indexTip)) = d ->
       wasPinching (state_after (predictWebcam tick s)) = ltb d PINCH_THRESHOLD.
Proof.
  unfold PINCH_THRESHOLD. repeat split.
  - apply ltb_true.
  - apply ltb_true.
  - intro H. now apply ltb_false.
  - apply ltb_false. lra.
  - intros tick thumbTip indexTip s F D.
    rewrite (predictWebcam_hand _ _ _ s F). simpl.
    now rewrite <- D, calculateDistance_planar.
Qed.

Lemma pinch_threshold_strict_witness :
  wasPinching (state_after (predictWebcam boundary_frame drawing)) = false.
Proof.
  destruct (pinch_threshold_strict 0.05) as (_ & Hge & _ & Hframe).
  rewrite (Hframe boundary_frame origin (Landmark.mk 0.05 0 0) drawing
             eq_refl boundary_distance).
  apply Hge. lra.
Defined.

(** C7. The distance of a frame is [calculateDistance] of the landmarks at
    indices 4 and 8 of the first hand, that is the planar Euclidean
    distance sqrt((x2-x1)^2 + (y2-y1)^2); neither the z coordinates nor
    any other landmark takes part: two frames that agree on x and y at
    indices 4 and 8 behave alike. *)
Theorem pinch_distance_planar :
  (forall p1 p2 : Point.t,
     calculateDistance p1 p2 =
     sqrt ((Point.x p2 - Point.x p1) ^ 2 + (Point.y p2 - Point.y p1) ^ 2))
  /\ (forall (tick : Tick) (hand : Hand) (thumbTip indexTip : Landmark.t) (s : State),
        firstHand tick = Some hand ->
        nth_error hand 4 = Some thumbTip ->
        nth_error hand 8 = Some indexTip ->
        wasPinching (state_after (predictWebcam tick s)) =
        ltb (sqrt ((Landmark.x indexTip - Landmark.x thumbTip) ^ 2
                   + (Landmark.y indexTip - Landmark.y thumbTip) ^ 2))
            PINCH_THRESHOLD)
  /\ (forall (tick tick' : Tick) (hand hand' : Hand) (x4 y4 z4 z4' x8 y8 z8 z8' : R)
             (s : State),
        window tick = window tick' ->
        firstHand tick = Some hand ->
        firstHand tick' = Some hand' ->
        nth_error hand 4 = Some (Landmark.mk x4 y4 z4) ->
        nth_error hand' 4 = Some (Landmark.mk x4 y4 z4') ->
        nth_error hand 8 = Some (Landmark.mk x8 y8 z8) ->
        nth_error hand' 8 = Some (Landmark.mk x8 y8 z8') ->
        predictWebcam tick s = predictWebcam tick' s).
Proof.
  split; [ | split ].
  - intros p1 p2. reflexivity.
  - intros tick hand thumbTip indexTip s H H4 H8.
    rewrite (predictWebcam_hand _ _ _ s (fingertips_intro _ _ _ _ H H4 H8)).
    simpl. unfold planar. do 2 f_equal. ring.
  - intros tick tick' hand hand' x4 y4 z4 z4' x8 y8 z8 z8' s W H H' H4 H4' H8 H8'.
    rewrite (predictWebcam_hand _ _ _ s (fingertips_intro _ _ _ _ H H4 H8)).
    rewrite (predictWebcam_hand _ _ _ s (fingertips_intro _ _ _ _ H' H4' H8')).
    rewrite W. reflexivity.
Qed.

Lemma pinch_distance_planar_witness :
  wasPinching (state_after (predictWebcam open_frame initial)) =
  ltb (sqrt ((0.9 - 0.1) ^ 2 + (0.9 - 0.1) ^ 2)) PINCH_THRESHOLD
  /\ predictWebcam open_frame drawing = predictWebcam open_frame_deep drawing.
Proof.
  destruct pinch_distance_planar as (_ & Hd & Hz). split.
  - exact (Hd open_frame _ _ _ initial eq_refl eq_refl eq_refl).
  - exact (Hz open_frame open_frame_deep _ _ _ _ _ _ _ _ _ _ drawing
              eq_refl eq_refl eq_refl eq_refl eq_refl eq_refl eq_refl).
Defined.

(** ** One frame *)

(** C4. On a frame with a hand, every call is made at the mapped index
    fingertip: x = (1 - landmark.x) * width, mirrored, and
    y = landmark.y * height, not flipped; so landmark x = 0 is sent to the
    width, x = 1 to 0 and x = 0.5 to half the width. At least one call is
    made. *)
Theorem fingertip_mapping
    (tick : Tick) (hand : Hand) (thumbTip indexTip : Landmark.t) (s : State) :
  firstHand tick = Some hand ->
  nth_error hand 4 = Some thumbTip ->
  nth_error hand 8 = Some indexTip ->
  calls (predictWebcam tick s) <> []
  /\ forall (eventName : EventName) (x y : R),
       In (TriggerEvent eventName x y) (calls (predictWebcam tick s)) ->
       x = (1 - Landmark.x indexTip) * innerWidth (window tick)
       /\ y = Landmark.y indexTip * innerHeight (window tick)
       /\ (Landmark.x indexTip = 0 -> x = innerWidth (window tick))
       /\ (Landmark.x indexTip = 1 -> x = 0)
       /\ (Landmark.x indexTip = 0.5 -> x = innerWidth (window tick) / 2).
Proof.
  intros H H4 H8.
  rewrite (predictWebcam_hand _ _ _ s (fingertips_intro _ _ _ _ H H4 H8)).
  unfold calls, emitted. simpl snd.
  split.
  - destruct (ltb _ _), (wasPinching s); discriminate.
  - intros eventName x y HIn.
    assert (E : x = (1 - Landmark.x indexTip) * innerWidth (window tick)
                /\ y = Landmark.y indexTip * innerHeight (window tick)).
    { destruct (ltb _ _), (wasPinching s); simpl in HIn;
        repeat (destruct HIn as [HIn | HIn];
                [ injection HIn as _ <- <-; now split | ]);
        contradiction. }
    destruct E as [-> ->]. repeat split; intros ->; lra.
Qed.

Lemma fingertip_mapping_witness :
  calls (predictWebcam open_frame drawing) <> []
  /\ In (TriggerEvent mouseup 100 720) (calls (predictWebcam open_frame drawing))
  /\ 100 = (1 - Landmark.x (Landmark.mk 0.9 0.9 0)) * innerWidth (window open_frame)
  /\ 720 = Landmark.y (Landmark.mk 0.9 0.9 0) * innerHeight (window open_frame).
Proof.
  destruct (fingertip_mapping open_frame _ _ _ drawing eq_refl eq_refl eq_refl)
    as [Hne Hmap].
  assert (HIn : In (TriggerEvent mouseup 100 720)
                   (calls (predictWebcam open_frame drawing)))
    by (rewrite open_frame_release; now left).
  destruct (Hmap mouseup 100 720 HIn) as (Hx & Hy & _).
  repeat split; assumption.
Defined.

(** C5. A frame without a hand (the detector was not run, or reported no
    landmarks, or an empty list of hands) makes no call and leaves the
    whole state, [wasPinching] included, as it was, whatever it was. *)
Theorem no_hand_no_op (tick : Tick) (s : State) :
  video_ready tick = false
  \/ landmarks (results tick) = None
  \/ landmarks (results tick) = Some [] ->
  predictWebcam tick s = (Normal tt, s, []).
Proof.
  intro H. apply predictWebcam_no_hand. unfold firstHand.
  destruct H as [-> | [-> | ->]]; [ reflexivity | | ];
    now destruct (video_ready tick).
Qed.

Lemma no_hand_no_op_witness :
  predictWebcam no_hand_frame drawing = (Normal tt, drawing, []).
Proof.
  apply no_hand_no_op. right. right. reflexivity.
Defined.

(** C8. Hands after the first are ignored: two frames with the same first
    hand, the same window and the same guard, run from the same state,
    complete alike, with the same calls and the same next state. *)
Theorem extra_hands_ignored
    (tick tick' : Tick) (hand : Hand) (others others' : list Hand) (s : State) :
  video_ready tick = video_ready tick' ->
  window tick = window tick' ->
  landmarks (results tick) = Some (hand :: others) ->
  landmarks (results tick') = Some (hand :: others') ->
  predictWebcam tick s = predictWebcam tick' s.
Proof.
  intros Hv Hw Hl Hl'. unfold predictWebcam.
  rewrite <- Hv, <- Hw, Hl, Hl'. reflexivity.
Qed.

Lemma extra_hands_ignored_witness :
  predictWebcam pinch_frame initial =
  predictWebcam
    (frame_with canvas_1000_800
       [hand_with (Landmark.mk 0.5 0.5 0) (Landmark.mk 0.52 0.5 0);
        hand_with (Landmark.mk 0.1 0.1 0) (Landmark.mk 0.9 0.9 0);
        []])
    initial.
Proof.
  apply (extra_hands_ignored pinch_frame _ _ [] _ initial
           eq_refl eq_refl eq_refl eq_refl).
Defined.

(** C6. Thumb tip at (0.50, 0.50), index fingertip at (0.52, 0.50), a
    1000 x 800 canvas, not pinching before: the distance is 0.02, which
    is classified as pinching, and the frame makes the single call
    mousedown at (480, 400), which a mounted drawing surface receives as
    one mouse event at these client coordinates. *)
Theorem end_to_end_pinch
    (tick : Tick) (hand : Hand) (z4 z8 : R) (s : State) :
  firstHand tick = Some hand ->
  nth_error hand 4 = Some (Landmark.mk 0.5 0.5 z4) ->
  nth_error hand 8 = Some (Landmark.mk 0.52 0.5 z8) ->
  window tick = {| innerWidth := 1000; innerHeight := 800 |} ->
  wasPinching s = false ->
  calculateDistance (Point.mk 0.5 0.5) (Point.mk 0.52 0.5) = 0.02
  /\ ltb 0.02 PINCH_THRESHOLD = true
  /\ calls (predictWebcam tick s) = [TriggerEvent mousedown 480 400]
  /\ wasPinching (state_after (predictWebcam tick s)) = true
  /\ forall doc : Document,
       fabricCanvasRef_current doc = true ->
       upper_canvas doc = true ->
       dispatched doc (calls (predictWebcam tick s)) =
       [ {| type := mousedown; bubbles := true; cancelable := true;
            clientX := 480; clientY := 400 |} ].
Proof.
  intros H H4 H8 W Hs.
  assert (D : planar (Landmark.mk 0.5 0.5 z4) (Landmark.mk 0.52 0.5 z8) = 0.02)
    by exact planar_pinch_frame.
  assert (P : ltb 0.02 PINCH_THRESHOLD = true)
    by (apply ltb_true; unfold PINCH_THRESHOLD; lra).
  assert (C : calls (predictWebcam tick s) = [TriggerEvent mousedown 480 400]).
  { rewrite (predictWebcam_hand _ _ _ s (fingertips_intro _ _ _ _ H H4 H8)).
    unfold calls. simpl snd. rewrite D, P, Hs, W. simpl. do 2 f_equal; lra. }
  repeat split.
  - change (Point.mk 0.5 0.5)
      with (Point.mk (Landmark.x (Landmark.mk 0.5 0.5 z4))
                     (Landmark.y (Landmark.mk 0.5 0.5 z4))).
    change (Point.mk 0.52 0.5)
      with (Point.mk (Landmark.x (Landmark.mk 0.52 0.5 z8))
                     (Landmark.y (Landmark.mk 0.52 0.5 z8))).
    now rewrite calculateDistance_planar.
  - exact P.
  - exact C.
  - rewrite (predictWebcam_hand _ _ _ s (fingertips_intro _ _ _ _ H H4 H8)).
    simpl. now rewrite D.
  - intros doc Hc Hu. rewrite C. unfold dispatched. cbn [flat_map].
    rewrite (dispatch_mounted doc _ _ _ Hc Hu). reflexivity.
Qed.

Lemma end_to_end_pinch_witness :
  calls (predictWebcam pinch_frame initial) = [TriggerEvent mousedown 480 400].
Proof.
  destruct (end_to_end_pinch pinch_frame _ 0 0 initial
              eq_refl eq_refl eq_refl eq_refl eq_refl) as (_ & _ & C & _).
  exact C.
Defined.

(** C3, as the code has it. On a frame with a hand the calls follow the
    four cases, all at the mapped fingertip (x, y): mousedown when pinching
    and not pinching before; mousemove when pinching and pinching before;
    mousemove (hover) when not pinching and not pinching before; and, when
    not pinching but pinching before, two calls: mouseup followed by the
    hover mousemove. *)
Theorem four_case_table
    (tick : Tick) (hand : Hand) (thumbTip indexTip : Landmark.t) (s : State) :
  firstHand tick = Some hand ->
  nth_error hand 4 = Some thumbTip ->
  nth_error hand 8 = Some indexTip ->
  let distance :=
    calculateDistance (Point.mk (Landmark.x thumbTip) (Landmark.y thumbTip))
                      (Point.mk (Landmark.x indexTip) (Landmark.y indexTip)) in
  let x := (1 - Landmark.x indexTip) * innerWidth (window tick) in
  let y := Landmark.y indexTip * innerHeight (window tick) in
  (distance < 0.05 -> wasPinching s = false ->
   calls (predictWebcam tick s) = [TriggerEvent mousedown x y])
  /\ (distance < 0.05 -> wasPinching s = true ->
      calls (predictWebcam tick s) = [TriggerEvent mousemove x y])
  /\ (0.05 <= distance -> wasPinching s = true ->
      calls (predictWebcam tick s) =
      [TriggerEvent mouseup x y; TriggerEvent mousemove x y])
  /\ (0.05 <= distance -> wasPinching s = false ->
      calls (predictWebcam tick s) = [TriggerEvent mousemove x y]).
Proof.
  intros H H4 H8 distance x y. subst distance x y.
  rewrite (predictWebcam_hand _ _ _ s (fingertips_intro _ _ _ _ H H4 H8)).
  rewrite calculateDistance_planar. unfold calls, PINCH_THRESHOLD. simpl snd.
  repeat split; intros D Hs; rewrite Hs.
  - apply ltb_true in D. now rewrite D.
  - apply ltb_true in D. now rewrite D.
  - apply ltb_false in D. now rewrite D.
  - apply ltb_false in D. now rewrite D.
Qed.

Lemma four_case_table_witness :
  calls (predictWebcam open_frame drawing) =
  [TriggerEvent mouseup ((1 - 0.9) * 1000) (0.9 * 800);
   TriggerEvent mousemove ((1 - 0.9) * 1000) (0.9 * 800)].
Proof.
  destruct (four_case_table open_frame _ _ _ drawing eq_refl eq_refl eq_refl)
    as (_ & _ & Hup & _).
  exact (Hup open_frame_distance eq_refl).
Defined.

(** C3, as stated, fails on a release: with the open hand after a pinch
    the frame makes two calls, mouseup and then mousemove, not one. *)
Lemma release_frame_two_calls :
  fingertips open_frame
  = Some (Landmark.mk 0.1 0.1 0, Landmark.mk 0.9 0.9 0)
  /\ pinching open_frame = Some false
  /\ wasPinching drawing = true
  /\ calls (predictWebcam open_frame drawing) =
     [TriggerEvent mouseup 100 720; TriggerEvent mousemove 100 720]
  /\ ~ (exists c : Call, calls (predictWebcam open_frame drawing) = [c]).
Proof.
  repeat split.
  - exact open_frame_not_pinching.
  - exact open_frame_release.
  - intros [c E]. rewrite open_frame_release in E. discriminate.
Qed.

(** ** The loop, frame after frame *)

(** C9. Along the loop, from its initial state and after every frame, the
    indicator [isDrawing] equals [wasPinching]; a frame with a hand leaves
    it true when it emits mousedown, false when it emits mouseup, and as
    it was when it emits neither. *)
Theorem drawing_indicator_tracks_pinch :
  (forall ticks : list Tick,
     isDrawing (state_after (frameLoop ticks initial))
     = wasPinching (state_after (frameLoop ticks initial)))
  /\ (forall (tick : Tick) (thumbTip indexTip : Landmark.t) (s : State),
        fingertips tick = Some (thumbTip, indexTip) ->
        (In mousedown (names (calls (predictWebcam tick s))) ->
         isDrawing (state_after (predictWebcam tick s)) = true)
        /\ (In mouseup (names (calls (predictWebcam tick s))) ->
            isDrawing (state_after (predictWebcam tick s)) = false)
        /\ (~ In mousedown (names (calls (predictWebcam tick s))) ->
            ~ In mouseup (names (calls (predictWebcam tick s))) ->
            isDrawing (state_after (predictWebcam tick s)) = isDrawing s)).
Proof.
  split.
  - intro ticks. now apply frameLoop_indicator.
  - intros tick thumbTip indexTip s F.
    rewrite (predictWebcam_hand _ _ _ s F).
    unfold state_after, calls, emitted, drawing_after. simpl.
    destruct (ltb _ _), (wasPinching s); simpl; repeat split; intros;
      try reflexivity;
      repeat match goal with
             | H : _ \/ _ |- _ => destruct H
             | H : False |- _ => destruct H
             | H : _ = _ |- _ => discriminate H
             | H : ~ _ |- _ => exfalso; apply H; now auto
             end.
Qed.

Lemma drawing_indicator_tracks_pinch_witness :
  isDrawing (state_after (predictWebcam pinch_frame initial)) = true.
Proof.
  destruct drawing_indicator_tracks_pinch as [_ Hstep].
  destruct (Hstep pinch_frame _ _ initial eq_refl) as (Hdown & _ & _).
  apply Hdown.
  destruct (predictWebcam_pinching pinch_frame true initial pinch_frame_pinching)
    as (_ & _ & ->).
  simpl. now left.
Defined.

(** C1, as the code has it. From the start of the loop, with a hand on
    every frame so far: a continuous pinch (a run of pinching frames that
    starts the sequence or follows an open-hand frame) that is ended by an
    open-hand frame produces exactly one mousedown, then one mousemove for
    each further frame of the run, then exactly one mouseup, which the
    hover mousemove of the releasing frame follows; a pinch still held
    when the sequence ends has produced its mousedown and its moves; in
    every trace mousedown and mouseup alternate, starting with mousedown,
    and no two equal neighbours are downs or ups. *)
Theorem pinch_bracketed :
  (forall (pre run post : list Tick) (rel : Tick),
     Forall (fun tick => pinching tick <> None) pre ->
     pre = [] \/
     (exists before last, pre = before ++ [last] /\ pinching last = Some false) ->
     run <> [] ->
     Forall (fun tick => pinching tick = Some true) run ->
     pinching rel = Some false ->
     names (calls (frameLoop (pre ++ run ++ rel :: post) initial)) =
     names (calls (frameLoop pre initial))
     ++ [mousedown] ++ repeat mousemove (length run - 1) ++ [mouseup]
     ++ [mousemove] ++ names (calls (frameLoop post initial)))
  /\ (forall pre run : list Tick,
        Forall (fun tick => pinching tick <> None) pre ->
        pre = [] \/
        (exists before last, pre = before ++ [last] /\ pinching last = Some false) ->
        run <> [] ->
        Forall (fun tick => pinching tick = Some true) run ->
        names (calls (frameLoop (pre ++ run) initial)) =
        names (calls (frameLoop pre initial))
        ++ [mousedown] ++ repeat mousemove (length run - 1))
  /\ (forall ticks : list Tick,
        alternating false (names (calls (frameLoop ticks initial))) = true)
  /\ (forall (ticks : list Tick) (l1 l2 : list EventName) (e : EventName),
        names (calls (frameLoop ticks initial)) = l1 ++ e :: e :: l2 ->
        e = mousemove).
Proof.
  split; [ | split; [ | split ] ].
  - intros pre run post rel F L Hne Hrun Hrel.
    destruct (frameLoop_idle pre F L) as (C0 & S0).
    destruct (frameLoop_pinch_start run Hne Hrun) as (C1 & S1 & N1).
    destruct (frameLoop_release rel Hrel) as (C2 & S2 & N2).
    rewrite (frameLoop_app_names pre _ initial initial C0 S0).
    rewrite (frameLoop_app_names run _ initial drawing C1 S1).
    change (rel :: post) with ([rel] ++ post).
    rewrite (frameLoop_app_names [rel] _ drawing initial C2 S2).
    rewrite N1, N2. reflexivity.
  - intros pre run F L Hne Hrun.
    destruct (frameLoop_idle pre F L) as (C0 & S0).
    destruct (frameLoop_pinch_start run Hne Hrun) as (_ & _ & N1).
    rewrite (frameLoop_app_names pre _ initial initial C0 S0).
    rewrite N1. reflexivity.
  - intro ticks. apply (frameLoop_alternating ticks initial).
  - intros ticks l1 l2 e E.
    apply (alternating_no_repeat l1 l2 e false).
    rewrite <- E. apply (frameLoop_alternating ticks initial).
Qed.

Lemma pinch_bracketed_witness :
  names (calls (frameLoop
           ([open_frame] ++ [pinch_frame; pinch_frame] ++ open_frame :: [pinch_frame])
           initial)) =
  names (calls (frameLoop [open_frame] initial))
  ++ [mousedown] ++ repeat mousemove 1 ++ [mouseup]
  ++ [mousemove] ++ names (calls (frameLoop [pinch_frame] initial)).
Proof.
  destruct pinch_bracketed as (Hrun & _).
  apply (Hrun [open_frame] [pinch_frame; pinch_frame] [pinch_frame] open_frame).
  - repeat constructor. rewrite open_frame_not_pinching. discriminate.
  - right. exists [], open_frame. split; [ reflexivity | ].
    exact open_frame_not_pinching.
  - discriminate.
  - repeat constructor; exact pinch_frame_pinching.
  - exact open_frame_not_pinching.
Defined.

(** C1, as stated, fails for a pinch that is still held when the frames
    end: the one-frame sequence of a pinching hand is a maximal run of
    pinching frames, and its trace is a single mousedown, with no
    mouseup. *)
Lemma held_pinch_no_up :
  pinching pinch_frame = Some true
  /\ names (calls (frameLoop [pinch_frame] initial)) = [mousedown]
  /\ ~ In mouseup (names (calls (frameLoop [pinch_frame] initial))).
Proof.
  assert (N : names (calls (frameLoop [pinch_frame] initial)) = [mousedown]).
  { rewrite frameLoop_single.
    destruct (predictWebcam_pinching pinch_frame true initial pinch_frame_pinching)
      as (_ & _ & ->).
    reflexivity. }
  repeat split.
  - exact pinch_frame_pinching.
  - exact N.
  - rewrite N. simpl. intros [H | []]. discriminate.
Qed.

(** * Further properties of the code *)

(** ** The geometry helpers *)










(** ** One frame, further *)

Lemma emitted_at (b was : bool) (X Y : R) (eventName : EventName) (x y : R) :
  In (TriggerEvent eventName x y) (emitted b was X Y) -> x = X /\ y = Y.
Proof.
  unfold emitted. intro HIn.
  destruct b, was; simpl in HIn;
    repeat (destruct HIn as [HIn | HIn];
            [ injection HIn as _ <- <-; now split | ]);
    contradiction.
Qed.



(** X6. When the index fingertip is a normalised landmark (x and y between
    0 and 1) and the window has a size, every call of the frame is made at
    a point of the window: x from 0 to its width, y from 0 to its height. *)
Theorem pointer_within_window
    (tick : Tick) (hand : Hand) (thumbTip indexTip : Landmark.t) (s : State) :
  firstHand tick = Some hand ->
  nth_error hand 4 = Some thumbTip ->
  nth_error hand 8 = Some indexTip ->
  0 <= Landmark.x indexTip <= 1 ->
  0 <= Landmark.y indexTip <= 1 ->
  0 <= innerWidth (window tick) ->
  0 <= innerHeight (window tick) ->
  forall (eventName : EventName) (x y : R),
    In (TriggerEvent eventName x y) (calls (predictWebcam tick s)) ->
    0 <= x <= innerWidth (window tick) /\ 0 <= y <= innerHeight (window tick).
Proof.
  intros H H4 H8 Hx Hy Hw Hh eventName x y HIn.
  rewrite (predictWebcam_hand _ _ _ s (fingertips_intro _ _ _ _ H H4 H8)) in HIn.
  unfold calls in HIn. simpl snd in HIn.
  apply emitted_at in HIn. destruct HIn as [-> ->]. nra.
Qed.

Lemma pointer_within_window_witness :
  0 <= 100 <= innerWidth (window open_frame)
  /\ 0 <= 720 <= innerHeight (window open_frame).
Proof.
  apply (pointer_within_window open_frame _ _ _ drawing eq_refl eq_refl eq_refl)
    with (eventName := mouseup); simpl; try lra.
  rewrite open_frame_release. now left.
Defined.

(** X7. A frame throws exactly when its first hand has fewer than nine
    landmarks: then it throws a TypeError before making any call and
    without touching the state, and the loop stops there, whatever frames
    would follow; with nine landmarks or more it completes. *)
Theorem short_hand_stops_loop (tick : Tick) (hand : Hand) :
  firstHand tick = Some hand ->
  ((length hand <= 8)%nat ->
   (forall s : State, predictWebcam tick s = (Throw TypeError, s, []))
   /\ (forall (pre post : list Tick) (s : State),
         completion (frameLoop pre s) = Normal tt ->
         frameLoop (pre ++ tick :: post) s =
         (Throw TypeError, state_after (frameLoop pre s), calls (frameLoop pre s))))
  /\ ((9 <= length hand)%nat ->
      forall s : State, completion (predictWebcam tick s) = Normal tt).
Proof.
  intro H. split.
  - intro Hlen.
    assert (F : fingertips tick = None).
    { unfold fingertips. rewrite H.
      assert (E8 : nth_error hand 8 = None) by (apply nth_error_None; lia).
      rewrite E8. now destruct (nth_error hand 4). }
    assert (T : forall s, predictWebcam tick s = (Throw TypeError, s, []))
      by (intro s; now apply predictWebcam_short_hand with hand).
    split; [ exact T | ].
    intros pre post s C. rewrite (frameLoop_app_normal _ _ _ C).
    rewrite (frameLoop_cons_throw _ _ _ _ _ _ (T _)).
    unfold completion at 1, state_after at 1, calls at 2. simpl.
    now rewrite app_nil_r.
  - intros Hlen s.
    destruct (nth_error hand 4) as [t | ] eqn:E4;
      [ | apply nth_error_None in E4; lia ].
    destruct (nth_error hand 8) as [i | ] eqn:E8;
      [ | apply nth_error_None in E8; lia ].
    now rewrite (predictWebcam_hand _ _ _ s (fingertips_intro _ _ _ _ H E4 E8)).
Qed.

Lemma short_hand_stops_loop_witness :
  frameLoop ([pinch_frame] ++ short_hand_frame :: [open_frame; open_frame]) initial
  = (Throw TypeError, state_after (frameLoop [pinch_frame] initial),
     calls (frameLoop [pinch_frame] initial)).
Proof.
  destruct (short_hand_stops_loop short_hand_frame _ eq_refl) as [Hshort _].
  assert (Hlen : (length [origin; origin; origin; origin; Landmark.mk 0.5 0.5 0]
                  <= 8)%nat) by (simpl; lia).
  destruct (Hshort Hlen) as [_ Hloop].
  apply Hloop. apply frameLoop_hands. repeat constructor.
  rewrite pinch_frame_pinching. discriminate.
Defined.

(** ** The loop, further *)

Lemma triple_eta {A} (r : Completion A * State * list Call) :
  (completion r, state_after r, calls r) = r.
Proof. now destruct r as [[c s] out]. Qed.

Lemma frameLoop_cons_no_hand (tick : Tick) (rest : list Tick) (s : State) :
  firstHand tick = None -> frameLoop (tick :: rest) s = frameLoop rest s.
Proof.
  intro H.
  rewrite (frameLoop_cons_normal _ rest _ _ _ (predictWebcam_no_hand _ s H)).
  apply triple_eta.
Qed.

Lemma frameLoop_no_hands (lost : list Tick) (s : State) :
  Forall (fun tick => firstHand tick = None) lost ->
  frameLoop lost s = (Normal tt, s, []).
Proof.
  induction 1 as [ | tick rest H _ IH ]; [ reflexivity | ].
  now rewrite frameLoop_cons_no_hand.
Qed.

Lemma frameLoop_app_state (pre post : list Tick) (s s1 : State) :
  completion (frameLoop pre s) = Normal tt ->
  state_after (frameLoop pre s) = s1 ->
  state_after (frameLoop (pre ++ post) s) = state_after (frameLoop post s1).
Proof. intros C <-. now rewrite (frameLoop_app_normal _ _ _ C). Qed.

Lemma occurrences_app (e : EventName) (l1 l2 : list EventName) :
  occurrences e (l1 ++ l2) = (occurrences e l1 + occurrences e l2)%nat.
Proof. unfold occurrences. now rewrite filter_app, length_app. Qed.

Lemma frameLoop_cons_names (tick : Tick) (rest : list Tick) (s s1 : State)
    (out1 : list Call) :
  predictWebcam tick s = (Normal tt, s1, out1) ->
  names (calls (frameLoop (tick :: rest) s))
  = names out1 ++ names (calls (frameLoop rest s1))
  /\ state_after (frameLoop (tick :: rest) s) = state_after (frameLoop rest s1).
Proof.
  intro E. rewrite (frameLoop_cons_normal _ _ _ _ _ E).
  unfold calls at 1, state_after at 1. cbn [fst snd].
  split; [ apply map_app | reflexivity ].
Qed.

(** Downs open a stroke and ups close it, whatever the state at the start. *)
Lemma frameLoop_balance (ticks : list Tick) (s : State) :
  (Nat.b2n (wasPinching s)
   + occurrences mousedown (names (calls (frameLoop ticks s))))%nat
  = (occurrences mouseup (names (calls (frameLoop ticks s)))
     + Nat.b2n (wasPinching (state_after (frameLoop ticks s))))%nat.
Proof.
  revert s. induction ticks as [ | tick rest IH ]; intro s.
  { unfold frameLoop, ret, calls, state_after, names, occurrences. simpl. lia. }
  destruct (predictWebcam_cases tick s) as [(t & i & F) | [E | E]].
  - assert (P : pinching tick = Some (ltb (planar t i) PINCH_THRESHOLD))
      by (unfold pinching; now rewrite F).
    destruct (predictWebcam_pinching tick _ s P) as (C & S1 & N).
    destruct (predictWebcam tick s) as [[r s1] out1] eqn:E.
    unfold completion, state_after, calls in C, S1, N. cbn [fst snd] in C, S1, N.
    subst r. destruct (frameLoop_cons_names tick rest s s1 out1 E) as [-> ->].
    rewrite !occurrences_app, N.
    specialize (IH s1). rewrite S1 in IH at 1. cbn [wasPinching] in IH.
    destruct (ltb (planar t i) PINCH_THRESHOLD), (wasPinching s);
      unfold occurrences at 1 3; simpl; simpl in IH; lia.
  - destruct (frameLoop_cons_names tick rest s s [] E) as [-> ->]. apply IH.
  - rewrite (frameLoop_cons_throw _ _ _ _ _ _ E).
    unfold calls, state_after, names, occurrences. simpl. lia.
Qed.

(** X8. Frames without a hand are transparent: the loop returns the same
    completion, the same state and the same calls as on the sequence from
    which these frames are removed. *)
Theorem no_hand_frames_transparent (ticks : list Tick) (s : State) :
  frameLoop ticks s = frameLoop (filter hasHand ticks) s.
Proof.
  revert s. induction ticks as [ | tick rest IH ]; intro s; [ reflexivity | ].
  simpl filter. unfold hasHand at 1.
  destruct (firstHand tick) as [hand | ] eqn:H.
  - simpl. apply bind_ext. intros _ s1. apply IH.
  - rewrite frameLoop_cons_no_hand by exact H. apply IH.
Qed.

(** X9. A pinch during which the hand is lost for some frames and found
    again pinching is one stroke: one mousedown, then only mousemoves, one
    for each further pinching frame, no mouseup; the state stays
    "drawing" throughout. *)
Theorem interrupted_pinch_one_stroke (run1 lost run2 : list Tick) :
  run1 <> [] ->
  Forall (fun tick => pinching tick = Some true) run1 ->
  Forall (fun tick => firstHand tick = None) lost ->
  Forall (fun tick => pinching tick = Some true) run2 ->
  names (calls (frameLoop (run1 ++ lost ++ run2) initial))
  = mousedown :: repeat mousemove (length run1 + length run2 - 1)
  /\ state_after (frameLoop (run1 ++ lost) initial) = drawing
  /\ state_after (frameLoop (run1 ++ lost ++ run2) initial) = drawing.
Proof.
  intros Hne P1 L P2.
  destruct (frameLoop_pinch_start run1 Hne P1) as (C1 & S1 & N1).
  pose proof (frameLoop_no_hands lost drawing L) as E.
  destruct (frameLoop_pinch_held run2 P2) as (C2 & S2 & N2).
  assert (CL : completion (frameLoop lost drawing) = Normal tt) by now rewrite E.
  assert (SL : state_after (frameLoop lost drawing) = drawing) by now rewrite E.
  repeat split.
  - rewrite (frameLoop_app_names run1 _ initial drawing C1 S1).
    rewrite (frameLoop_app_names lost _ drawing drawing CL SL).
    rewrite N1, N2, E. simpl. f_equal. rewrite <- repeat_app. f_equal.
    destruct run1; [ congruence | simpl; lia ].
  - rewrite (frameLoop_app_state run1 _ initial drawing C1 S1). exact SL.
  - rewrite (frameLoop_app_state run1 _ initial drawing C1 S1).
    rewrite (frameLoop_app_state lost _ drawing drawing CL SL). exact S2.
Qed.

Lemma interrupted_pinch_one_stroke_witness :
  names (calls (frameLoop
           ([pinch_frame] ++ [no_hand_frame; no_hand_frame] ++ [pinch_frame])
           initial))
  = mousedown :: repeat mousemove (1 + 1 - 1).
Proof.
  apply (interrupted_pinch_one_stroke
           [pinch_frame] [no_hand_frame; no_hand_frame] [pinch_frame]).
  - discriminate.
  - repeat constructor. exact pinch_frame_pinching.
  - repeat constructor.
  - repeat constructor. exact pinch_frame_pinching.
Defined.

(** X10. At any moment of the loop the mousedowns outnumber the mouseups
    by one when the state is "pinching" and equal them otherwise, and the
    page's label reads "Drawing Mode" exactly in the first case: it is
    shown exactly while a stroke is open. *)
Theorem strokes_balanced (ticks : list Tick) :
  let trace := names (calls (frameLoop ticks initial)) in
  let final := state_after (frameLoop ticks initial) in
  occurrences mousedown trace
  = (occurrences mouseup trace + Nat.b2n (wasPinching final))%nat
  /\ (Page.modeLabel (isDrawing final) = Page.modeLabel true
      <-> occurrences mousedown trace = S (occurrences mouseup trace)).
Proof.
  intros trace final.
  pose proof (frameLoop_balance ticks initial) as B.
  pose proof (frameLoop_indicator ticks initial eq_refl) as I.
  fold trace final in B, I. simpl in B.
  split; [ exact B | ].
  rewrite I. destruct (wasPinching final); simpl in B |- *.
  - split; [ intros _; lia | reflexivity ].
  - split; [ discriminate | lia ].
Qed.

(** X11. While the hand stays open after an open hand (or from the start),
    the loop only hovers: one mousemove for each frame, never a mousedown
    or a mouseup, and the state does not change. *)
Theorem hover_only (ticks : list Tick) (s : State) :
  wasPinching s = false ->
  Forall (fun tick => pinching tick = Some false) ticks ->
  completion (frameLoop ticks s) = Normal tt
  /\ state_after (frameLoop ticks s) = s
  /\ names (calls (frameLoop ticks s)) = repeat mousemove (length ticks).
Proof.
  intros W F. destruct s as [w d]. simpl in W. subst w.
  induction F as [ | tick rest Hd _ IH ]; [ now repeat split | ].
  frame_step Hd {| wasPinching := false; isDrawing := d |} E Hn.
  destruct IH as (C & S' & N).
  unfold completion, state_after, calls in *. cbn [fst snd length repeat].
  repeat split; auto.
  unfold names in *. rewrite map_app, Hn, N. reflexivity.
Qed.

Lemma hover_only_witness :
  names (calls (frameLoop [open_frame; open_frame; open_frame] initial))
  = repeat mousemove 3.
Proof.
  destruct (hover_only [open_frame; open_frame; open_frame] initial eq_refl)
    as (_ & _ & N); [ | exact N ].
  repeat constructor; exact open_frame_not_pinching.
Defined.

(** ** [triggerEvent] and the drawing surface *)

Lemma map_type_event_of (l : list Call) : map type (map event_of l) = names l.
Proof.
  unfold names. rewrite map_map. apply map_ext. now intros [eventName x y].
Qed.

(** X12. With the drawing surface mounted, every call of [triggerEvent]
    dispatches one event, in the order of the calls and at their
    coordinates; so what the surface receives from the loop has its
    mousedowns and mouseups alternate, starting with a mousedown. *)
Theorem dispatched_when_mounted (doc : Document) :
  fabricCanvasRef_current doc = true ->
  upper_canvas doc = true ->
  (forall l : list Call, dispatched doc l = map event_of l)
  /\ (forall ticks : list Tick,
        alternating false
          (map type (dispatched doc (calls (frameLoop ticks initial)))) = true).
Proof.
  intros Hc Hu.
  assert (D : forall l : list Call, dispatched doc l = map event_of l).
  { induction l as [ | [eventName x y] l IH ]; [ reflexivity | ].
    unfold dispatched in *. cbn [flat_map map].
    now rewrite (dispatch_mounted doc _ _ _ Hc Hu), IH. }
  split; [ exact D | ].
  intro ticks. rewrite D, map_type_event_of.
  apply (frameLoop_alternating ticks initial).
Qed.

Lemma dispatched_when_mounted_witness :
  dispatched mounted (calls (frameLoop [pinch_frame; open_frame] initial))
  = map event_of (calls (frameLoop [pinch_frame; open_frame] initial)).
Proof.
  destruct (dispatched_when_mounted mounted eq_refl eq_refl) as [D _].
  apply D.
Defined.

(** X13. When [fabricCanvasRef.current] is not set, or no element of class
    upper-canvas is found, no call of [triggerEvent] dispatches anything:
    the surface receives nothing from the whole trace. *)
Theorem nothing_dispatched_unmounted (doc : Document) (l : list Call) :
  fabricCanvasRef_current doc = false \/ upper_canvas doc = false ->
  dispatched doc l = [].
Proof.
  intro H. unfold dispatched.
  induction l as [ | c l IH ]; [ reflexivity | ].
  cbn [flat_map]. now rewrite (dispatch_unmounted doc c H), IH.
Qed.

Lemma nothing_dispatched_unmounted_witness :
  dispatched no_upper_canvas (calls (frameLoop [pinch_frame; open_frame] initial))
  = [].
Proof.
  apply nothing_dispatched_unmounted. right. reflexivity.
Defined.

(** ** The overlay *)

Lemma drawHand_no_clear (hands : list Hand) :
  Forall (fun op => is_clear op = false) (flat_map drawUtils.drawHand hands).
Proof.
  induction hands as [ | hand rest IH ]; [ constructor | ].
  cbn [flat_map drawUtils.drawHand app]. now repeat constructor.
Qed.

Module Overlay_facts.
Import String.

(** X14. With a context and landmarks, [drawLandmarks] clears the whole
    canvas once, first, and then paints the hands in their order, for each
    one its connectors (green, width 5) and then its points (red, width 2,
    radius 3): 1 + 2n operations for n hands; without a context or
    without landmarks it paints nothing. *)
Theorem drawLandmarks_sequence (canvas : Canvas) (hands : list Hand) :
  let ops := drawUtils.drawLandmarks (Some canvas) (Some hands) in
  List.length ops = (1 + 2 * List.length hands)%nat
  /\ nth_error ops 0 = Some (ClearRect 0 0 (width canvas) (height canvas))
  /\ (forall (k : nat) (hand : Hand),
        nth_error hands k = Some hand ->
        nth_error ops (1 + 2 * k)
        = Some (DrawConnectors hand "#00FF00"%string 5)
        /\ nth_error ops (2 + 2 * k)
           = Some (DrawLandmarks hand "#FF0000"%string 2 3))
  /\ drawUtils.drawLandmarks None (Some hands) = []
  /\ drawUtils.drawLandmarks (Some canvas) None = [].
Proof.
  cbn zeta. unfold drawUtils.drawLandmarks. repeat split.
  - cbn [List.length]. f_equal.
    induction hands as [ | hand rest IH ]; [ reflexivity | ].
    cbn [flat_map drawUtils.drawHand app List.length]. rewrite IH. lia.
  - replace (1 + 2 * k)%nat with (S (2 * k)) by lia. cbn [nth_error].
    revert k H. induction hands as [ | first rest IH ]; intros k H.
    + now destruct k.
    + destruct k as [ | k ].
      * injection H as ->. reflexivity.
      * replace (2 * S k)%nat with (S (S (2 * k))) by lia.
        cbn [flat_map drawUtils.drawHand app nth_error]. now apply IH.
  - replace (2 + 2 * k)%nat with (S (S (2 * k))) by lia. cbn [nth_error].
    revert k H. induction hands as [ | first rest IH ]; intros k H.
    + now destruct k.
    + destruct k as [ | k ].
      * injection H as ->. reflexivity.
      * replace (2 * S k)%nat with (S (S (2 * k))) by lia.
        cbn [flat_map drawUtils.drawHand app nth_error]. now apply IH.
Qed.

Lemma drawLandmarks_sequence_witness :
  nth_error
    (drawUtils.drawLandmarks (Some {| width := 1000; height := 800 |})
       (Some [hand_with origin origin; []]))
    (1 + 2 * 1)
  = Some (DrawConnectors [] "#00FF00"%string 5).
Proof.
  destruct (drawLandmarks_sequence {| width := 1000; height := 800 |}
              [hand_with origin origin; []]) as (_ & _ & Hk & _).
  destruct (Hk 1%nat [] eq_refl) as [Hc _]. exact Hc.
Defined.

(** X15. A frame that paints (the guard passes, the overlay canvas and its
    context exist) first clears the whole overlay, never clears after it
    has drawn, and draws every detected hand, not only the first: once
    without landmarks, else 2 + 2n operations for n hands. *)
Theorem overlay_clears_then_draws (overlay : Overlay) (tick : Tick) (canvas : Canvas) :
  video_ready tick = true ->
  overlayCanvasRef_current overlay = Some canvas ->
  getContext_2d overlay = true ->
  let ops := predictWebcam_overlay overlay tick in
  (exists clears draws : list DrawOp,
     ops = clears ++ draws
     /\ clears <> []
     /\ Forall (fun op => op = ClearRect 0 0 (width canvas) (height canvas)) clears
     /\ Forall (fun op => is_clear op = false) draws)
  /\ (forall (hands : list Hand) (hand : Hand),
        landmarks (results tick) = Some hands ->
        In hand hands ->
        In (DrawConnectors hand "#00FF00"%string 5) ops
        /\ In (DrawLandmarks hand "#FF0000"%string 2 3) ops)
  /\ List.length ops
     = match landmarks (results tick) with
       | Some hands => (2 + 2 * List.length hands)%nat
       | None => 1%nat
       end.
Proof.
  intros Hv Hc Hg. cbn zeta. unfold predictWebcam_overlay.
  rewrite Hv, Hc, Hg.
  destruct (landmarks (results tick)) as [hands | ].
  - unfold drawUtils.drawLandmarks. repeat split.
    + exists [ClearRect 0 0 (width canvas) (height canvas);
              ClearRect 0 0 (width canvas) (height canvas)],
             (flat_map drawUtils.drawHand hands).
      repeat split; try discriminate.
      * now repeat constructor.
      * apply drawHand_no_clear.
    + injection H as <-. right. right. apply in_flat_map.
      exists hand. split; [ assumption | now left ].
    + injection H as <-. right. right. apply in_flat_map.
      exists hand. split; [ assumption | right; now left ].
    + cbn [List.length]. do 2 f_equal.
      induction hands as [ | hand rest IH ]; [ reflexivity | ].
      cbn [flat_map drawUtils.drawHand app List.length]. rewrite IH. lia.
  - repeat split; try discriminate.
    exists [ClearRect 0 0 (width canvas) (height canvas)], [].
    repeat split; try discriminate; now repeat constructor.
Qed.

Lemma overlay_clears_then_draws_witness :
  List.length
    (predictWebcam_overlay overlay_1000_800
       (frame_with canvas_1000_800 [hand_with origin origin; hand_with origin origin]))
  = 6%nat.
Proof.
  destruct (overlay_clears_then_draws overlay_1000_800
              (frame_with canvas_1000_800
                 [hand_with origin origin; hand_with origin origin])
              _ eq_refl eq_refl eq_refl) as (_ & _ & Hlen).
  exact Hlen.
Defined.

End Overlay_facts.
